(** * payment-manager: the command-line wrapper (tools/cli.ts)

    A shallow embedding of [tools/cli.ts] and of the payment-manager
    operations it drives.  The first part follows the source of the CLI line
    by line; the operations themselves (create, update, get) live in files
    that are not part of the sources at hand and are modelled separately,
    from the specification, in [Module PaymentManager]. *)

From stdpp Require Import gmap strings list.

Local Open Scope string_scope.

(** ** JavaScript values the CLI manipulates *)

(** A line feed, the [\n] of the template strings. *)
Definition nl : string := String (Ascii.ascii_of_nat 10) EmptyString.

(** [x || y] where [x] is read from [process.env] (a string, or
    [undefined] when the variable is not set) and [y] is a string.  The
    only falsy values of that type are [undefined] and the empty string. *)
Definition truthy (x : option string) : bool :=
  match x with
  | Some s => negb (String.eqb s "")
  | None => false
  end.

Definition js_or (x : option string) (y : string) : string :=
  if truthy x then default y x else y.

(** [ProviderParams] of the source. *)
Record ProviderParams := { cluster : string; wallet : string }.

(** What the argument parser hands to yargs: the words that are not
    options (the array [_]) and the options with their values. *)
Record ParsedArgs := {
  positionals : list string;
  options : gmap string string;
}.

(** ** The collaborators of the CLI

    Everything the source imports and calls: the connection helper of
    [@solana-nft-programs/common], [keypairFrom] of [./utils], the [Wallet]
    constructor of anchor, [JSON.stringify] and the argument parser behind
    [yargs].  A call of [connectionFor], of [keypairFrom], of [getArgs] or
    of [JSON.stringify] returns a value or throws (an unknown cluster name,
    an unreadable key, a value JSON cannot hold).  [connectionFor] also
    reads [process.env] ([RPC_URL], [MAINNET_PRIMARY]), hence its first
    argument.  [Args] is the type [T] of the argument objects (erased at
    run time), [Err] the type of thrown values and [Ext] whatever lies
    outside the process (the cluster). *)
Inductive returned (E A : Type) : Type :=
| Returns (a : A)
| Throws (e : E).
Arguments Returns {E A} a.
Arguments Throws {E A} e.

Class Host := {
  Connection : Type;
  Keypair : Type;
  Wallet : Type;
  Args : Type;
  Err : Type;
  Ext : Type;
  connectionFor : gmap string string -> string -> returned Err Connection;
  keypairFrom : string -> string -> returned Err Keypair;
  newWallet : Keypair -> Wallet;
  publicKey_toString : Wallet -> string;
  JSON_stringify : Args -> returned Err string;
  yargs_parser : list string -> ParsedArgs;
  (** the two failures yargs reports itself *)
  notEnoughCommands : nat -> nat -> Err;
  unknownArguments : list string -> Err;
}.

(** ** Promises, the process state and the events of a run *)

(** How an awaited promise ends: it resolves, it rejects, or it never
    settles. *)
Inductive outcome (E A : Type) : Type :=
| Resolved (a : A)
| Rejected (e : E)
| Pending.
Arguments Resolved {E A} a.
Arguments Rejected {E A} e.
Arguments Pending {E A}.

Section Cli.
Context `{H : Host}.

(** The observable steps of a run, in the order they happen. *)
Inductive event : Type :=
| CallConnectionFor (clusterString : string)
| CallKeypairFrom (s n : string)
| CallGetArgs (c : Connection) (w : Wallet)
| ConsoleLog (line : string)
| Prompt (query : string)
| CallHandler (c : Connection) (w : Wallet) (a : Args)
| ShowHelp
| ShowVersion.

(** The state a run reads and changes: [process.env], the lines still to
    be read on standard input, and the outside world. *)
Record world := {
  env : gmap string string;
  stdin : list string;
  ext : Ext;
}.

(** A computation: from a state to how it ends, the events it emitted and
    the state it leaves. *)
Definition M (A : Type) : Type := world -> outcome Err A * list event * world.

Definition ret {A} (a : A) : M A := fun σ => (Resolved a, [], σ).

Definition bind {A B} (m : M A) (k : A -> M B) : M B := fun σ =>
  match m σ with
  | (Resolved a, t1, σ1) =>
      match k a σ1 with
      | (o, t2, σ2) => (o, (t1 ++ t2)%list, σ2)
      end
  | (Rejected e, t1, σ1) => (Rejected e, t1, σ1)
  | (Pending, t1, σ1) => (Pending, t1, σ1)
  end.

Notation "'let*' x ':=' m 'in' k" := (bind m (fun x => k))
  (at level 10, x name, m at level 100, k at level 200).

Definition throw {A} (e : Err) : M A := fun σ => (Rejected e, [], σ).

Definition emit (e : event) : M unit := fun σ => (Resolved tt, [e], σ).

Definition getenv (name : string) : M (option string) := fun σ =>
  (Resolved (env σ !! name), [], σ).

Definition console_log (line : string) : M unit := emit (ConsoleLog line).

(** Inside the [async] handler a value that is thrown rejects the
    promise of the handler; a value that is returned lets it go on. *)
Definition settle {A} (r : returned Err A) : outcome Err A :=
  match r with
  | Returns a => Resolved a
  | Throws e => Rejected e
  end.

Definition call_connectionFor (clusterString : string) : M Connection := fun σ =>
  (settle (connectionFor (env σ) clusterString),
   [CallConnectionFor clusterString], σ).

Definition call_keypairFrom (s n : string) : M Keypair := fun σ =>
  (settle (keypairFrom s n), [CallKeypairFrom s n], σ).

Definition call_stringify (a : Args) : M string := fun σ =>
  (settle (JSON_stringify a), [], σ).

(** What one call of an operation handler does: the lines it prints, how
    its promise ends and the outside world it leaves. *)
Record handler_run := {
  printed : list string;
  settled : outcome Err unit;
  ext_after : Ext;
}.

(** The shape of the modules [./createPaymentManager],
    [./updatePaymentManager] and [./getPaymentManager]: the argument of
    [commandBuilder]. *)
Record Command := {
  commandName : string;
  description : string;
  getArgs : Connection -> Wallet -> returned Err Args;
  handler : Connection -> Wallet -> Args -> Ext -> handler_run;
}.

Definition call_getArgs (command : Command) (c : Connection) (w : Wallet) : M Args :=
  fun σ => (settle (getArgs command c w), [CallGetArgs c w], σ).

Definition call_handler (command : Command) (c : Connection) (w : Wallet)
    (a : Args) : M unit := fun σ =>
  let r := handler command c w a (ext σ) in
  (settled r,
   CallHandler c w a :: (ConsoleLog <$> printed r),
   {| env := env σ; stdin := stdin σ; ext := ext_after r |}).

(** [question]: readline writes the query and the promise resolves with
    the next line of standard input; nothing ever rejects it, and it stays
    pending when no line comes. *)
Definition question (query : string) : M string := fun σ =>
  match stdin σ with
  | ans :: rest =>
      (Resolved ans, [Prompt query],
       {| env := env σ; stdin := rest; ext := ext σ |})
  | [] => (Pending, [Prompt query], σ)
  end.

(** [CommandModule<ProviderParams, ProviderParams>] of yargs, as far as the
    source fills it; [run] is its [handler] property. *)
Record CommandModule := {
  command : string;
  describe : string;
  run : ProviderParams -> M unit;
}.

(** ** [commandBuilder] *)

Definition commandBuilder (cmd : Command) : CommandModule :=
  {| command := commandName cmd;
     describe := description cmd;
     run := fun argv =>
       let* CLUSTER := getenv "CLUSTER" in
       let clusterString := js_or CLUSTER (cluster argv) in
       let* c := call_connectionFor clusterString in
       let* WALLET := getenv "WALLET" in
       let* k := call_keypairFrom (js_or WALLET (wallet argv)) "wallet" in
       let w := newWallet k in
       let* a := call_getArgs cmd c w in
       let* _ := console_log (description cmd) in
       let* _ := console_log ("[cluster=" +:+ clusterString +:+ "] [wallet="
                              +:+ publicKey_toString w +:+ "]") in
       let* _ := console_log (nl +:+ "(modify args in " +:+ commandName cmd
                              +:+ ".ts)") in
       let* json := call_stringify a in
       let* _ := console_log json in
       let* _ := question (nl +:+ "Execute... [enter]") in
       call_handler cmd c w a |}.

(** ** Reading a run *)

Definition outcome_of {A} (r : outcome Err A * list event * world) : outcome Err A := r.1.1.
Definition events_of {A} (r : outcome Err A * list event * world) : list event := r.1.2.
Definition world_of {A} (r : outcome Err A * list event * world) : world := r.2.

Definition is_getArgs (e : event) : bool :=
  match e with CallGetArgs _ _ => true | _ => false end.

Definition is_handler (e : event) : bool :=
  match e with CallHandler _ _ _ => true | _ => false end.

(** How many events of a kind a trace holds. *)
Fixpoint count (p : event -> bool) (t : list event) : nat :=
  match t with
  | [] => 0
  | e :: t' => (if p e then 1 else 0) + count p t'
  end.

(** What a trace writes on the terminal: the lines of [console.log] and
    the queries of readline; the calls write nothing themselves. *)
Definition written (e : event) : option string :=
  match e with
  | ConsoleLog line => Some line
  | Prompt query => Some query
  | _ => None
  end.

Definition stdout_of (t : list event) : list string := omap written t.

(** ** What a run of [commandBuilder]'s handler works with *)

(** The cluster name a run asks the connection for, and the string it
    reads the key pair from. *)
Definition clusterString_of (params : ProviderParams) (σ : world) : string :=
  js_or (env σ !! "CLUSTER") (cluster params).
Definition walletString_of (params : ProviderParams) (σ : world) : string :=
  js_or (env σ !! "WALLET") (wallet params).

(** What a run has done when it waits for the answer, given the connection
    [c], the wallet [w] and the JSON text [json] it obtained. *)
Definition shown (cmd : Command) (params : ProviderParams) (σ : world)
    (c : Connection) (w : Wallet) (json : string) : list event :=
  [ CallConnectionFor (clusterString_of params σ);
    CallKeypairFrom (walletString_of params σ) "wallet";
    CallGetArgs c w;
    ConsoleLog (description cmd);
    ConsoleLog ("[cluster=" +:+ clusterString_of params σ +:+ "] [wallet="
                +:+ publicKey_toString w +:+ "]");
    ConsoleLog (nl +:+ "(modify args in " +:+ commandName cmd +:+ ".ts)");
    ConsoleLog json;
    Prompt (nl +:+ "Execute... [enter]") ].

(** ** What one may expect of a run *)

(** Every confirmation prompt of the trace comes before the line that
    prints the JSON text [json] of the arguments. *)
Definition prompt_precedes_arguments (t : list event) (json : string) : Prop :=
  forall i j q,
    t !! i = Some (Prompt q) ->
    t !! j = Some (ConsoleLog json) ->
    i < j.

(** [getArgs] is called exactly once in the run. *)
Definition getArgs_called_once (cmd : Command) (params : ProviderParams) (σ : world) : Prop :=
  count is_getArgs (events_of (run (commandBuilder cmd) params σ)) = 1.

(** Whenever [CLUSTER] is set, its value is the cluster name the
    connection is asked for, and whenever [WALLET] is set, its value is
    what the key pair is read from. *)
Definition env_overrides (cmd : Command) (params : ProviderParams) (σ : world) : Prop :=
  let t := events_of (run (commandBuilder cmd) params σ) in
  (forall v, env σ !! "CLUSTER" = Some v -> t !! 0 = Some (CallConnectionFor v)) /\
  (forall v, env σ !! "WALLET" = Some v -> t !! 1 = Some (CallKeypairFrom v "wallet")).

(** ** The script: [dotenv.config()] and the yargs chain

    yargs is a framework the source only configures.  [Yargs] records what
    the chain of the script sets, one function per method it calls, and
    [argv] gives the documented behaviour of reading [.argv] for that
    subset: defaults fill the options that were not given, a request for
    help or for the version is served first (help can also be asked for
    by ending the command line with the word [help]), [demandCommand]
    wants a command word, the first word selects the command module
    registered under that name, and [strict] refuses options and words
    that nothing declares, the options first in its report.  Command names
    are single words. *)

(** [dotenv.config()]: the variables of the [.env] file are added to
    [process.env]; a variable that is already set keeps its value. *)
Definition loaded (file : gmap string string) (σ : world) : world :=
  {| env := env σ ∪ file; stdin := stdin σ; ext := ext σ |}.

Definition dotenv_config (file : gmap string string) : M unit := fun σ =>
  (Resolved tt, [], loaded file σ).

(** [hideBin(process.argv)]: the arguments after the interpreter and the
    script. *)
Definition hideBin (process_argv : list string) : list string :=
  drop 2 process_argv.

Record PositionalOptions := { describe_option : string; default_value : string }.

Record Yargs := {
  processArgs : list string;
  declared : list (string * PositionalOptions);
  handlers : gmap string CommandModule;
  strictMode : bool;
  demanded : nat;
  aliases : list (string * string);
}.

Definition yargs (processArgs : list string) : Yargs :=
  {| processArgs := processArgs; declared := []; handlers := ∅;
     strictMode := false; demanded := 0; aliases := [] |}.

Definition positional (key : string) (o : PositionalOptions) (y : Yargs) : Yargs :=
  {| processArgs := processArgs y; declared := (declared y ++ [(key, o)])%list;
     handlers := handlers y; strictMode := strictMode y;
     demanded := demanded y; aliases := aliases y |}.

(** [.command(m)]: the module is registered under its command name, in
    place of an earlier one of that name. *)
Definition add_command (m : CommandModule) (y : Yargs) : Yargs :=
  {| processArgs := processArgs y; declared := declared y;
     handlers := <[command m := m]> (handlers y); strictMode := strictMode y;
     demanded := demanded y; aliases := aliases y |}.

Definition strict (y : Yargs) : Yargs :=
  {| processArgs := processArgs y; declared := declared y;
     handlers := handlers y; strictMode := true;
     demanded := demanded y; aliases := aliases y |}.

Definition demandCommand (y : Yargs) : Yargs :=
  {| processArgs := processArgs y; declared := declared y;
     handlers := handlers y; strictMode := strictMode y;
     demanded := 1; aliases := aliases y |}.

Definition alias (l : list (string * string)) (y : Yargs) : Yargs :=
  {| processArgs := processArgs y; declared := declared y;
     handlers := handlers y; strictMode := strictMode y;
     demanded := demanded y; aliases := (aliases y ++ l)%list |}.

(** The option keys yargs knows: the declared ones, its own [help] and
    [version], and both sides of every alias. *)
Definition known_keys (y : Yargs) : list string :=
  ((declared y).*1 ++ ["help"; "version"] ++ (aliases y).*1 ++ (aliases y).*2)%list.

Definition is_known (y : Yargs) (key : string) : bool :=
  existsb (String.eqb key) (known_keys y).

Definition unknown_keys (y : Yargs) (p : ParsedArgs) : list string :=
  List.filter (fun key => negb (is_known y key)) (map fst (map_to_list (options p))).

(** The words yargs takes for a request of help when they end the command
    line: [help] and its aliases of more than one letter. *)
Definition help_words (y : Yargs) : list string :=
  List.filter (fun w => Nat.ltb 1 (String.length w))
    ("help" :: flat_map (fun '(a, k) =>
                           (if String.eqb k "help" then [a] else [])
                           ++ (if String.eqb a "help" then [k] else []))%list
                 (aliases y)).

Definition ends_with_help (y : Yargs) (p : ParsedArgs) : bool :=
  match last (positionals p) with
  | Some w => existsb (String.eqb w) (help_words y)
  | None => false
  end.

(** Was [key] given: as an option, under its own name or under an alias
    of it, or, for [help], as the last word of the command line? *)
Definition given (y : Yargs) (p : ParsedArgs) (key : string) : bool :=
  bool_decide (is_Some (options p !! key))
  || existsb (fun '(a, k) =>
                (String.eqb k key && bool_decide (is_Some (options p !! a)))
                || (String.eqb a key && bool_decide (is_Some (options p !! k))))
             (aliases y)
  || (String.eqb key "help" && ends_with_help y p).

(** The defaults of the declared options, under the options given. *)
Definition defaults (y : Yargs) : gmap string string :=
  list_to_map (map (fun '(key, o) => (key, default_value o)) (declared y)).

Definition with_defaults (y : Yargs) (p : ParsedArgs) : gmap string string :=
  options p ∪ defaults y.

(** The handler receives the object of all options; a [ProviderParams]
    reads its [cluster] and [wallet] properties. *)
Definition providerParams (o : gmap string string) : ProviderParams :=
  {| cluster := o !!! "cluster"; wallet := o !!! "wallet" |}.

(** What yargs makes of a command line: it serves help or the version,
    refuses the command line, runs a command module, or has nothing to
    do. *)
Inductive verdict : Type :=
| Serve (e : event)
| Refuse (err : Err)
| Execute (m : CommandModule)
| Idle.

Definition judge (y : Yargs) (p : ParsedArgs) : verdict :=
  if given y p "help" then Serve ShowHelp
  else if given y p "version" then Serve ShowVersion
  else
    match positionals p with
    | [] =>
        if decide (0 < demanded y) then Refuse (notEnoughCommands 0 (demanded y))
        else Idle
    | name :: rest =>
        match handlers y !! name with
        | Some m =>
            match (unknown_keys y p ++ rest)%list with
            | [] => Execute m
            | unknown =>
                if strictMode y then Refuse (unknownArguments unknown)
                else Execute m
            end
        | None =>
            if strictMode y
            then Refuse (unknownArguments (unknown_keys y p ++ name :: rest))
            else Idle
        end
    end.

(** Reading [.argv] parses the arguments and acts on them. *)
Definition argv (y : Yargs) : M unit :=
  let p := yargs_parser (processArgs y) in
  match judge y p with
  | Serve e => emit e
  | Refuse err => throw err
  | Execute m => run m (providerParams (with_defaults y p))
  | Idle => ret tt
  end.

(** The three command modules the script imports. *)
Variables createPaymentManager updatePaymentManager getPaymentManager : Command.

Notation "y '.>' f" := (f y) (at level 50, left associativity, only parsing).

Definition cli (process_argv : list string) : Yargs :=
  yargs (hideBin process_argv)
    .> positional "wallet"
         {| describe_option := "Wallet to use - default to WALLET environment variable";
            default_value := "~/.config/solana/id.json" |}
    .> positional "cluster"
         {| describe_option := "Solana cluster moniker to use [mainnet, devnet] - ovverride url with RPC_URL environment variable or mainnet moniker with MAINNET_PRIMARY environment variable";
            default_value := "devnet" |}
    .> add_command (commandBuilder createPaymentManager)
    .> add_command (commandBuilder updatePaymentManager)
    .> add_command (commandBuilder getPaymentManager)
    .> strict
    .> demandCommand
    .> alias [("h", "help")].

Definition main (dotenvFile : gmap string string) (process_argv : list string) : M unit :=
  let* _ := dotenv_config dotenvFile in
  argv (cli process_argv).


End Cli.


(** * The payment-manager operations *)

Module PaymentManager.

(** Modelled from the spec: an identity (an authority, a signer, a fee
    recipient).  The SDK and the on-chain program that define the
    operations are not among the sources at hand. *)
Definition Pubkey : Type := string.

(** Modelled from the spec: the fee of an account, "fee basis points or
    fixed fee amount". *)
Inductive Fee : Type :=
| BasisPoints (bps : N)
| FixedAmount (amount : N).

(** Modelled from the spec: the fee parameters of an account, its fee and
    its "fee recipient address(es)". *)
Record FeeParameters := {
  fee : Fee;
  feeRecipients : list Pubkey;
}.

(** Modelled from the spec: the PaymentManager account, "authority
    (identity permitted to update it)" and the fee parameters.  The chain
    holds the accounts under the address derived from their identifier;
    the derivation is deterministic, so the identifier stands for it. *)
Record Account := {
  authority : Pubkey;
  feeParameters : FeeParameters;
}.

(** Modelled from the spec: the two instructions of the program.  An
    update carries "new fee parameters and/or new authority". *)
Inductive Instruction : Type :=
| InitIx (identifier : string) (params : FeeParameters) (newAuthority : Pubkey)
| UpdateIx (identifier : string) (newParams : option FeeParameters)
    (newAuthority : option Pubkey).

(** Modelled from the spec: the transaction request, "one instruction plus
    the signer identity". *)
Record TransactionRequest := {
  instruction : Instruction;
  signer : Pubkey;
}.

(** Modelled from the spec: why the program refuses a transaction. *)
Inductive SubmissionError : Type :=
| AccountAlreadyExists
| AccountDoesNotExist
| InvalidAuthority.

(** Modelled from the spec: a submission is confirmed or fails. *)
Inductive Submission : Type :=
| Confirmed
| Failed (e : SubmissionError).

(** Modelled from the spec: submitting a transaction to the program.
    Create: "the derived account must not already exist", side effect "one
    new on-chain account".  Update: "account must already exist and signer
    must be the current authority", and it "mutates the existing account".
    "A failed submission leaves on-chain state unchanged." *)
Definition submit (tx : TransactionRequest) (chain : gmap string Account)
    : Submission * gmap string Account :=
  match instruction tx with
  | InitIx id params auth =>
      match chain !! id with
      | Some _ => (Failed AccountAlreadyExists, chain)
      | None =>
          (Confirmed, <[id := {| authority := auth; feeParameters := params |}]> chain)
      end
  | UpdateIx id newParams newAuth =>
      match chain !! id with
      | None => (Failed AccountDoesNotExist, chain)
      | Some acct =>
          if decide (signer tx = authority acct)
          then (Confirmed,
                <[id := {| authority := default (authority acct) newAuth;
                           feeParameters := default (feeParameters acct) newParams |}]>
                  chain)
          else (Failed InvalidAuthority, chain)
      end
  end.

(** Modelled from the spec: the Create operation, "given (connection,
    signer identity, target identifier, fee parameters, authority
    address), produce and submit one instruction". *)
Definition Create (who : Pubkey) (id : string) (params : FeeParameters)
    (auth : Pubkey) (chain : gmap string Account) : Submission * gmap string Account :=
  submit {| instruction := InitIx id params auth; signer := who |} chain.

(** Modelled from the spec: the Update operation, "given (connection,
    signer identity, target identifier, new fee parameters and/or new
    authority), produce and submit one instruction". *)
Definition Update (who : Pubkey) (id : string) (newParams : option FeeParameters)
    (newAuth : option Pubkey) (chain : gmap string Account)
    : Submission * gmap string Account :=
  submit {| instruction := UpdateIx id newParams newAuth; signer := who |} chain.

(** Modelled from the spec: what Get yields, "the decoded structure, or a
    not found condition". *)
Inductive Fetched : Type :=
| Decoded (acct : Account)
| NotFound.

(** Modelled from the spec: the Get operation, "fetch the raw account data
    and decode it"; it is given the chain and hands it back. *)
Definition Get (id : string) (chain : gmap string Account)
    : Fetched * gmap string Account :=
  (match chain !! id with
   | Some acct => Decoded acct
   | None => NotFound
   end, chain).

End PaymentManager.

(** * A concrete host

    One small instance of the collaborators, on which the statements below
    are run: connections, keys and wallets are strings, the connection
    helper knows five cluster names and throws on any other, the outside
    world is the chain of [PaymentManager], and the handlers perform its
    operations. *)

Module Demo.
Import PaymentManager.

Inductive Failure : Type :=
| NotEnoughCommands (got need : nat)
| UnknownArguments (l : list string)
| UnknownCluster (name : string)
| InvalidKeypair (n : string)
| TransactionFailed (e : SubmissionError).

(** The cluster names the connection helper knows. *)
Definition monikers : list string :=
  ["mainnet-beta"; "mainnet"; "devnet"; "testnet"; "localnet"].

Definition connect (clusterString : string) : returned Failure string :=
  if existsb (String.eqb clusterString) monikers then Returns clusterString
  else Throws (UnknownCluster clusterString).

(** A key is read from any string but the empty one. *)
Definition readKey (s n : string) : returned Failure string :=
  if String.eqb s "" then Throws (InvalidKeypair n) else Returns s.

(** The argument objects of the three commands. *)
Inductive Arguments : Type :=
| ForCreate (id : string) (params : FeeParameters) (auth : Pubkey)
| ForUpdate (id : string) (newParams : option FeeParameters) (newAuth : option Pubkey)
| ForGet (id : string).

(** A parser for the words of the command line: [--key value] is an
    option, any other word a positional. *)
Fixpoint parse (l : list string) : ParsedArgs :=
  match l with
  | [] => {| positionals := []; options := ∅ |}
  | w :: rest =>
      if String.prefix "--" w then
        match rest with
        | v :: rest' =>
            let p := parse rest' in
            {| positionals := positionals p;
               options := <[String.substring 2 (String.length w - 2) w := v]> (options p) |}
        | [] =>
            {| positionals := [];
               options := {[ String.substring 2 (String.length w - 2) w := "true" ]} |}
        end
      else
        let p := parse rest in
        {| positionals := w :: positionals p; options := options p |}
  end.

Definition stringify (a : Arguments) : string :=
  match a with
  | ForCreate id _ _ => "{ create: " +:+ id +:+ " }"
  | ForUpdate id _ _ => "{ update: " +:+ id +:+ " }"
  | ForGet id => "{ get: " +:+ id +:+ " }"
  end.

#[export] Instance host : Host := {|
  Connection := string;
  Keypair := string;
  Wallet := Pubkey;
  Args := Arguments;
  Err := Failure;
  Ext := gmap string Account;
  connectionFor := fun _ clusterString => connect clusterString;
  keypairFrom := readKey;
  newWallet := fun k => k;
  publicKey_toString := fun w => w;
  JSON_stringify := fun a => Returns (stringify a);
  yargs_parser := parse;
  notEnoughCommands := NotEnoughCommands;
  unknownArguments := UnknownArguments;
|}.

(** The handler of the three commands: it performs the operation its
    arguments ask for, as the signer [w], and prints what came of it. *)
Definition perform (c : string) (w : Pubkey) (a : Arguments)
    (chain : gmap string Account) : handler_run :=
  match a with
  | ForCreate id params auth =>
      match Create w id params auth chain with
      | (Confirmed, chain') =>
          {| printed := ["Created " +:+ id]; settled := Resolved tt;
             ext_after := chain' |}
      | (Failed e, chain') =>
          {| printed := []; settled := Rejected (TransactionFailed e);
             ext_after := chain' |}
      end
  | ForUpdate id newParams newAuth =>
      match Update w id newParams newAuth chain with
      | (Confirmed, chain') =>
          {| printed := ["Updated " +:+ id]; settled := Resolved tt;
             ext_after := chain' |}
      | (Failed e, chain') =>
          {| printed := []; settled := Rejected (TransactionFailed e);
             ext_after := chain' |}
      end
  | ForGet id =>
      match Get id chain with
      | (Decoded acct, chain') =>
          {| printed := ["authority " +:+ authority acct]; settled := Resolved tt;
             ext_after := chain' |}
      | (NotFound, chain') =>
          {| printed := ["not found"]; settled := Resolved tt; ext_after := chain' |}
      end
  end.

Definition params250 : FeeParameters :=
  {| fee := BasisPoints 250; feeRecipients := ["collector"] |}.

Definition params500 : FeeParameters :=
  {| fee := BasisPoints 500; feeRecipients := ["collector"] |}.

Definition create : Command :=
  {| commandName := "createPaymentManager";
     description := "Create a payment manager";
     getArgs := fun _ w => Returns (ForCreate "payments-1" params250 w);
     handler := perform |}.

Definition update : Command :=
  {| commandName := "updatePaymentManager";
     description := "Update a payment manager";
     getArgs := fun _ _ => Returns (ForUpdate "payments-1" (Some params500) None);
     handler := perform |}.

Definition get : Command :=
  {| commandName := "getPaymentManager";
     description := "Get a payment manager";
     getArgs := fun _ _ => Returns (ForGet "payments-1");
     handler := perform |}.

Definition params : ProviderParams :=
  {| cluster := "devnet"; wallet := "~/.config/solana/id.json" |}.

(** A terminal where the user presses enter once, nothing set in the
    environment, an empty chain. *)
Definition fresh : world :=
  {| env := ∅; stdin := [""]; ext := ∅ |}.

Definition with_env (e : gmap string string) (σ : world) : world :=
  {| env := e; stdin := stdin σ; ext := ext σ |}.

Definition with_chain (c : gmap string Account) (σ : world) : world :=
  {| env := env σ; stdin := stdin σ; ext := c |}.

Definition taken : gmap string Account :=
  {[ "payments-1" := {| authority := "A"; feeParameters := params250 |} ]}.

End Demo.

(** * Properties of [commandBuilder] *)

Section RunFacts.
Context `{H : Host}.
Implicit Types (cmd : Command) (params : ProviderParams) (σ : world).

(** The run of the handler that [commandBuilder] builds, by what its
    collaborators do. *)
Lemma run_unfold cmd params σ :
  run (commandBuilder cmd) params σ =
    match connectionFor (env σ) (clusterString_of params σ) with
    | Throws e =>
        (Rejected e, [CallConnectionFor (clusterString_of params σ)], σ)
    | Returns c =>
        match keypairFrom (walletString_of params σ) "wallet" with
        | Throws e =>
            (Rejected e,
             [CallConnectionFor (clusterString_of params σ);
              CallKeypairFrom (walletString_of params σ) "wallet"], σ)
        | Returns k =>
            match getArgs cmd c (newWallet k) with
            | Throws e =>
                (Rejected e,
                 [CallConnectionFor (clusterString_of params σ);
                  CallKeypairFrom (walletString_of params σ) "wallet";
                  CallGetArgs c (newWallet k)], σ)
            | Returns a =>
                match JSON_stringify a with
                | Throws e =>
                    (Rejected e,
                     [CallConnectionFor (clusterString_of params σ);
                      CallKeypairFrom (walletString_of params σ) "wallet";
                      CallGetArgs c (newWallet k);
                      ConsoleLog (description cmd);
                      ConsoleLog ("[cluster=" +:+ clusterString_of params σ
                                  +:+ "] [wallet="
                                  +:+ publicKey_toString (newWallet k) +:+ "]");
                      ConsoleLog (nl +:+ "(modify args in " +:+ commandName cmd
                                  +:+ ".ts)")], σ)
                | Returns json =>
                    match stdin σ with
                    | [] => (Pending, shown cmd params σ c (newWallet k) json, σ)
                    | ans :: rest =>
                        (settled (handler cmd c (newWallet k) a (ext σ)),
                         (shown cmd params σ c (newWallet k) json
                          ++ CallHandler c (newWallet k) a
                             :: (ConsoleLog <$>
                                   printed (handler cmd c (newWallet k) a (ext σ))))%list,
                         {| env := env σ; stdin := rest;
                            ext := ext_after (handler cmd c (newWallet k) a (ext σ)) |})
                    end
                end
            end
        end
    end.
Proof.
  cbn. unfold bind, getenv, call_connectionFor, call_keypairFrom, call_getArgs,
    call_stringify, console_log, emit, question, call_handler, clusterString_of,
    walletString_of. cbn.
  destruct (connectionFor _ _) as [c|e]; cbn; [|done].
  destruct (keypairFrom _ _) as [k|e]; cbn; [|done].
  destruct (getArgs _ _ _) as [a|e]; cbn; [|done].
  destruct (JSON_stringify _) as [json|e]; cbn; [|done].
  by destruct (stdin σ).
Qed.

(** The run when the connection, the wallet, the arguments and their JSON
    text are obtained. *)
Lemma run_ready cmd params σ c k a json :
  connectionFor (env σ) (clusterString_of params σ) = Returns c ->
  keypairFrom (walletString_of params σ) "wallet" = Returns k ->
  getArgs cmd c (newWallet k) = Returns a ->
  JSON_stringify a = Returns json ->
  run (commandBuilder cmd) params σ =
    match stdin σ with
    | [] => (Pending, shown cmd params σ c (newWallet k) json, σ)
    | ans :: rest =>
        (settled (handler cmd c (newWallet k) a (ext σ)),
         (shown cmd params σ c (newWallet k) json
          ++ CallHandler c (newWallet k) a
             :: (ConsoleLog <$> printed (handler cmd c (newWallet k) a (ext σ))))%list,
         {| env := env σ; stdin := rest;
            ext := ext_after (handler cmd c (newWallet k) a (ext σ)) |})
    end.
Proof. intros Hc Hk Ha Hj. by rewrite run_unfold, Hc, Hk, Ha, Hj. Qed.

Lemma js_or_truthy v d : v <> "" -> js_or (Some v) d = v.
Proof.
  intros Hv. unfold js_or, truthy.
  destruct (String.eqb v "") eqn:E; [|done].
  by apply String.eqb_eq in E.
Qed.

Lemma js_or_empty d : js_or (Some "") d = d.
Proof. reflexivity. Qed.

Lemma js_or_undefined d : js_or None d = d.
Proof. reflexivity. Qed.

Lemma js_or_fallback x y : js_or x y = "" -> y = "".
Proof.
  unfold js_or, truthy. destruct x as [s|]; [|done].
  destruct (String.eqb s "") eqn:E; cbn; [done|].
  intros ->. by rewrite String.eqb_refl in E.
Qed.

Lemma count_app p (t1 t2 : list event) :
  count p (t1 ++ t2) = count p t1 + count p t2.
Proof. induction t1 as [|e t1 IH]; cbn; [done|]. rewrite IH. lia. Qed.

Lemma count_logs p (l : list string) :
  (forall line, p (ConsoleLog line) = false) -> count p (ConsoleLog <$> l) = 0.
Proof. intros Hp. induction l as [|x l IH]; cbn; [done|]. by rewrite Hp, IH. Qed.

Lemma stdout_of_logs (l : list string) : stdout_of (ConsoleLog <$> l) = l.
Proof.
  unfold stdout_of. induction l as [|x l IH]; [done|].
  cbn. by rewrite IH.
Qed.

Lemma lookup_logs (l : list string) i e :
  (ConsoleLog <$> l) !! i = Some e -> exists line, e = ConsoleLog line /\ line ∈ l.
Proof.
  rewrite list_lookup_fmap. destruct (l !! i) as [line|] eqn:Hl; [|done].
  intros [= <-]. exists line. split; [done|]. by eapply list_elem_of_lookup_2.
Qed.

End RunFacts.

(** Splits a run by what each collaborator does and by standard input. *)
Ltac run_cases cmd params σ :=
  rewrite (run_unfold cmd params σ) in *;
  destruct (connectionFor (env σ) (clusterString_of params σ)) as [?c|?e] eqn:?Hc;
  [ destruct (keypairFrom (walletString_of params σ) "wallet") as [?k|?e] eqn:?Hk;
    [ destruct (getArgs cmd _ _) as [?a|?e] eqn:?Ha;
      [ destruct (JSON_stringify _) as [?json|?e] eqn:?Hj;
        [ destruct (stdin σ) as [|?ans ?rest] eqn:?Hin | ] | ] | ] | ];
  unfold shown, events_of, outcome_of, world_of in *; cbn [fst snd app] in *.

(** Walks a lookup down a list whose first cells are known; past them are
    the lines the handler printed. *)
Ltac at_index Hi :=
  repeat match type of Hi with
         | (_ :: _) !! ?i = Some _ =>
             destruct i as [|i]; cbn in Hi; [try discriminate Hi|]
         | [] !! ?i = Some _ => destruct i; discriminate Hi
         end;
  try (apply lookup_logs in Hi as (?line & ?Hline & ?Hmem); try discriminate Hline).

Section CommandBuilderFacts.
Context `{H : Host}.
Implicit Types (cmd : Command) (params : ProviderParams) (σ : world).

Lemma first_call cmd params σ :
  events_of (run (commandBuilder cmd) params σ) !! 0
  = Some (CallConnectionFor (clusterString_of params σ)).
Proof. by run_cases cmd params σ. Qed.

Lemma connection_called cmd params σ i s :
  events_of (run (commandBuilder cmd) params σ) !! i = Some (CallConnectionFor s) ->
  i = 0 /\ s = clusterString_of params σ.
Proof.
  intros Hi. run_cases cmd params σ; at_index Hi;
    by injection Hi as <-.
Qed.

Lemma keypair_called cmd params σ i s n :
  events_of (run (commandBuilder cmd) params σ) !! i = Some (CallKeypairFrom s n) ->
  i = 1 /\ s = walletString_of params σ /\ n = "wallet" /\
  exists c, connectionFor (env σ) (clusterString_of params σ) = Returns c.
Proof.
  intros Hi. run_cases cmd params σ; at_index Hi;
    injection Hi as <- <-; by eauto.
Qed.

Lemma getArgs_called cmd params σ i c w :
  events_of (run (commandBuilder cmd) params σ) !! i = Some (CallGetArgs c w) ->
  i = 2 /\
  connectionFor (env σ) (clusterString_of params σ) = Returns c /\
  exists k, keypairFrom (walletString_of params σ) "wallet" = Returns k
            /\ w = newWallet k.
Proof.
  intros Hi. run_cases cmd params σ; at_index Hi;
    injection Hi as <- <-; by eauto.
Qed.

Lemma handler_called cmd params σ i c w a :
  events_of (run (commandBuilder cmd) params σ) !! i = Some (CallHandler c w a) ->
  i = 8 /\
  connectionFor (env σ) (clusterString_of params σ) = Returns c /\
  exists k json ans rest,
    keypairFrom (walletString_of params σ) "wallet" = Returns k /\
    w = newWallet k /\
    getArgs cmd c w = Returns a /\
    JSON_stringify a = Returns json /\
    stdin σ = ans :: rest.
Proof.
  intros Hi. run_cases cmd params σ; at_index Hi.
  injection Hi as <- <- <-. split; [done|]. split; [done|]. by eauto 10.
Qed.

Lemma prompt_shown cmd params σ i q :
  events_of (run (commandBuilder cmd) params σ) !! i = Some (Prompt q) ->
  i = 7.
Proof.
  intros Hi. by run_cases cmd params σ; at_index Hi.
Qed.

Lemma count_getArgs_le cmd params σ :
  count is_getArgs (events_of (run (commandBuilder cmd) params σ)) <= 1.
Proof.
  run_cases cmd params σ; cbn; try lia.
  rewrite count_logs by done. lia.
Qed.

Lemma count_handler_le cmd params σ :
  count is_handler (events_of (run (commandBuilder cmd) params σ))
  <= count is_getArgs (events_of (run (commandBuilder cmd) params σ))
  /\ count is_handler (events_of (run (commandBuilder cmd) params σ)) <= 1.
Proof.
  run_cases cmd params σ; cbn; try lia.
  rewrite !count_logs by done. lia.
Qed.

End CommandBuilderFacts.

(** * What the command line does, claim by claim *)

Section CommandBuilderClaims.
Context `{H : Host}.
Implicit Types (cmd : Command) (params : ProviderParams) (σ : world).

(** C2, as the code has it: in every invocation in which the connection,
    the wallet, the arguments and their JSON text are obtained, the run
    calls the three collaborators, prints the description, the cluster and
    wallet line, the hint and the JSON-formatted arguments, and only then
    shows the confirmation prompt.  With no answer it stays there; with an
    answer it calls the operation handler, after the prompt, and what
    follows is what the handler printed: the run ends as the handler's
    promise ends. *)
Theorem arguments_then_prompt_then_handler cmd params σ c k a json :
  connectionFor (env σ) (js_or (env σ !! "CLUSTER") (cluster params)) = Returns c ->
  keypairFrom (js_or (env σ !! "WALLET") (wallet params)) "wallet" = Returns k ->
  getArgs cmd c (newWallet k) = Returns a ->
  JSON_stringify a = Returns json ->
  let r := run (commandBuilder cmd) params σ in
  let w := newWallet k in
  let h := handler cmd c w a (ext σ) in
  events_of r =
    ([ CallConnectionFor (js_or (env σ !! "CLUSTER") (cluster params));
       CallKeypairFrom (js_or (env σ !! "WALLET") (wallet params)) "wallet";
       CallGetArgs c w;
       ConsoleLog (description cmd);
       ConsoleLog ("[cluster=" +:+ js_or (env σ !! "CLUSTER") (cluster params)
                   +:+ "] [wallet=" +:+ publicKey_toString w +:+ "]");
       ConsoleLog (nl +:+ "(modify args in " +:+ commandName cmd +:+ ".ts)");
       ConsoleLog json;
       Prompt (nl +:+ "Execute... [enter]") ]
     ++ match stdin σ with
        | [] => []
        | _ :: _ => CallHandler c w a :: (ConsoleLog <$> printed h)
        end)%list /\
  outcome_of r = match stdin σ with
                 | [] => Pending
                 | _ :: _ => settled h
                 end.
Proof.
  intros Hc Hk Ha Hj. cbn zeta.
  rewrite (run_ready cmd params σ c k a json Hc Hk Ha Hj).
  by destruct (stdin σ).
Qed.

(** C3, as the code has it: a [CLUSTER] variable set to a non-empty string
    is the cluster name the connection is asked for, instead of the
    [--cluster] argument, and the connection [getArgs] and the handler
    receive is the one returned for it; a [WALLET] variable set to a
    non-empty string is what the key pair is read from, instead of the
    [--wallet] argument, as soon as the connection is obtained, and the
    wallet [getArgs] and the handler receive is built from that key
    pair. *)
Theorem env_overrides_when_not_empty cmd params σ :
  let t := events_of (run (commandBuilder cmd) params σ) in
  (forall v, env σ !! "CLUSTER" = Some v -> v <> "" ->
     t !! 0 = Some (CallConnectionFor v) /\
     forall i c w a,
       t !! i = Some (CallGetArgs c w) \/ t !! i = Some (CallHandler c w a) ->
       connectionFor (env σ) v = Returns c) /\
  (forall v, env σ !! "WALLET" = Some v -> v <> "" ->
     (forall i s n, t !! i = Some (CallKeypairFrom s n) -> s = v /\ n = "wallet") /\
     ((exists s c, t !! 0 = Some (CallConnectionFor s)
                   /\ connectionFor (env σ) s = Returns c) ->
      t !! 1 = Some (CallKeypairFrom v "wallet")) /\
     forall i c w a,
       t !! i = Some (CallGetArgs c w) \/ t !! i = Some (CallHandler c w a) ->
       exists k, keypairFrom v "wallet" = Returns k /\ w = newWallet k).
Proof.
  cbn zeta. split; intros v Hv Hne.
  - assert (clusterString_of params σ = v) as Hcs
      by (unfold clusterString_of; rewrite Hv; by apply js_or_truthy).
    split; [by rewrite first_call, Hcs|].
    intros i c w a [Hi|Hi].
    + apply getArgs_called in Hi as (_ & Hc & _). by rewrite <- Hcs.
    + apply handler_called in Hi as (_ & Hc & _). by rewrite <- Hcs.
  - assert (walletString_of params σ = v) as Hws
      by (unfold walletString_of; rewrite Hv; by apply js_or_truthy).
    split; [|split].
    + intros i s n Hi. apply keypair_called in Hi as (_ & -> & -> & _). done.
    + intros (s & c & Hs & Hc). rewrite first_call in Hs. injection Hs as <-.
      subst v. rewrite run_unfold, Hc.
      destruct (keypairFrom _ "wallet"); [|done].
      destruct (getArgs _ _ _); [|done]. destruct (JSON_stringify _); [|done].
      by destruct (stdin σ).
    + intros i c w a [Hi|Hi].
      * apply getArgs_called in Hi as (_ & _ & k & Hk & ->).
        exists k. by rewrite <- Hws.
      * apply handler_called in Hi as (_ & _ & k & ? & ? & ? & Hk & -> & _).
        exists k. by rewrite <- Hws.
Qed.

(** C8: a [CLUSTER] (resp. [WALLET]) variable set to the empty string
    counts as not set: as when the variable is absent, the connection is
    asked for the [--cluster] argument (resp. the key pair is read from the
    [--wallet] argument, as soon as the connection is obtained), and the
    connection (resp. wallet) that [getArgs] and the handler receive comes
    from it. *)
Theorem empty_env_value_is_unset cmd params σ :
  let t := events_of (run (commandBuilder cmd) params σ) in
  (env σ !! "CLUSTER" = Some "" \/ env σ !! "CLUSTER" = None ->
     t !! 0 = Some (CallConnectionFor (cluster params)) /\
     forall i c w a,
       t !! i = Some (CallGetArgs c w) \/ t !! i = Some (CallHandler c w a) ->
       connectionFor (env σ) (cluster params) = Returns c) /\
  (env σ !! "WALLET" = Some "" \/ env σ !! "WALLET" = None ->
     (forall i s n, t !! i = Some (CallKeypairFrom s n) ->
        s = wallet params /\ n = "wallet") /\
     ((exists s c, t !! 0 = Some (CallConnectionFor s)
                   /\ connectionFor (env σ) s = Returns c) ->
      t !! 1 = Some (CallKeypairFrom (wallet params) "wallet")) /\
     forall i c w a,
       t !! i = Some (CallGetArgs c w) \/ t !! i = Some (CallHandler c w a) ->
       exists k, keypairFrom (wallet params) "wallet" = Returns k /\ w = newWallet k).
Proof.
  cbn zeta. split; intros Hv.
  - assert (clusterString_of params σ = cluster params) as Hcs
      by (unfold clusterString_of; by destruct Hv as [-> | ->]).
    split; [by rewrite first_call, Hcs|].
    intros i c w a [Hi|Hi].
    + apply getArgs_called in Hi as (_ & Hc & _). by rewrite <- Hcs.
    + apply handler_called in Hi as (_ & Hc & _). by rewrite <- Hcs.
  - assert (walletString_of params σ = wallet params) as Hws
      by (unfold walletString_of; by destruct Hv as [-> | ->]).
    split; [|split].
    + intros i s n Hi. apply keypair_called in Hi as (_ & -> & -> & _). done.
    + intros (s & c & Hs & Hc). rewrite first_call in Hs. injection Hs as <-.
      rewrite <- Hws. rewrite run_unfold, Hc.
      destruct (keypairFrom _ "wallet"); [|done].
      destruct (getArgs _ _ _); [|done]. destruct (JSON_stringify _); [|done].
      by destruct (stdin σ).
    + intros i c w a [Hi|Hi].
      * apply getArgs_called in Hi as (_ & _ & k & Hk & ->).
        exists k. by rewrite <- Hws.
      * apply handler_called in Hi as (_ & _ & k & ? & ? & ? & Hk & -> & _).
        exists k. by rewrite <- Hws.
Qed.

(** C9, as the code has it: in every invocation [getArgs] is called at
    most once, and exactly once, third in the run, when the connection and
    the wallet have been obtained.  When it returns the arguments and their
    JSON text is obtained, that text is what is printed, the operation
    handler is called as soon as the prompt is answered, and every call of
    the handler receives that same value, with the connection and the
    wallet [getArgs] was given. *)
Theorem getArgs_once_shown_is_executed cmd params σ :
  let t := events_of (run (commandBuilder cmd) params σ) in
  count is_getArgs t <= 1 /\
  forall c k,
    connectionFor (env σ) (js_or (env σ !! "CLUSTER") (cluster params)) = Returns c ->
    keypairFrom (js_or (env σ !! "WALLET") (wallet params)) "wallet" = Returns k ->
    count is_getArgs t = 1 /\
    t !! 2 = Some (CallGetArgs c (newWallet k)) /\
    forall a json,
      getArgs cmd c (newWallet k) = Returns a ->
      JSON_stringify a = Returns json ->
      t !! 6 = Some (ConsoleLog json) /\
      (stdin σ <> [] -> t !! 8 = Some (CallHandler c (newWallet k) a)) /\
      forall i c' w' a',
        t !! i = Some (CallHandler c' w' a') ->
        i = 8 /\ c' = c /\ w' = newWallet k /\ a' = a.
Proof.
  cbn zeta. split; [apply count_getArgs_le|].
  intros c k Hc Hk. fold (clusterString_of params σ) in Hc.
  fold (walletString_of params σ) in Hk.
  split; [|split].
  - rewrite run_unfold, Hc, Hk.
    destruct (getArgs _ _ _); [|done]. destruct (JSON_stringify _); [|done].
    destruct (stdin σ); [done|]. unfold events_of, shown. cbn.
    by rewrite count_logs.
  - rewrite run_unfold, Hc, Hk.
    destruct (getArgs _ _ _); [|done]. destruct (JSON_stringify _); [|done].
    by destruct (stdin σ).
  - intros a json Ha Hj. split; [|split].
    + rewrite (run_ready cmd params σ c k a json Hc Hk Ha Hj). by destruct (stdin σ).
    + intros Hin. rewrite (run_ready cmd params σ c k a json Hc Hk Ha Hj).
      by destruct (stdin σ).
    + intros i c' w' a' Hi.
      apply handler_called in Hi as (-> & Hc' & k' & ? & ? & ? & Hk' & -> & Ha' & _).
      assert (c' = c) as -> by congruence. assert (k' = k) as -> by congruence.
      repeat split. congruence.
Qed.

(** C4: when the operation handler is called and its promise rejects
    with [e], the promise of the command's handler rejects with that same
    [e]; the operation handler was called once, nothing but what it
    printed itself follows its call, and the outside world is left as the
    failed call left it. *)
Theorem handler_failure_propagates cmd params σ i c w a e :
  let r := run (commandBuilder cmd) params σ in
  events_of r !! i = Some (CallHandler c w a) ->
  settled (handler cmd c w a (ext σ)) = Rejected e ->
  outcome_of r = Rejected e /\
  count is_handler (events_of r) = 1 /\
  (forall j e', events_of r !! j = Some e' -> i < j ->
     exists line, e' = ConsoleLog line /\ line ∈ printed (handler cmd c w a (ext σ))) /\
  ext (world_of r) = ext_after (handler cmd c w a (ext σ)).
Proof.
  cbn zeta. intros Hi Hrej.
  apply handler_called in Hi
    as (-> & Hc & k & json & ans & rest & Hk & -> & Ha & Hj & Hin).
  rewrite (run_ready cmd params σ c k a json Hc Hk Ha Hj), Hin.
  unfold outcome_of, events_of, world_of, shown. cbn.
  split; [done|]. split; [by rewrite count_logs|]. split; [|done].
  intros j e' Hj' Hlt. do 9 (destruct j as [|j]; [lia|]).
  cbn in Hj'. by apply lookup_logs in Hj'.
Qed.

End CommandBuilderClaims.

(** * The script *)

Section ScriptFacts.
Context `{H : Host}.
Variables createPaymentManager updatePaymentManager getPaymentManager : Command.
Implicit Types (σ : world) (file : gmap string string) (p : ParsedArgs).

Local Abbreviation script :=
  (cli createPaymentManager updatePaymentManager getPaymentManager).
Local Abbreviation main' :=
  (main createPaymentManager updatePaymentManager getPaymentManager).

Lemma main_unfold file process_argv σ :
  main' file process_argv σ = argv (script process_argv) (loaded file σ).
Proof.
  unfold main, bind, dotenv_config.
  by destruct (argv (script process_argv) (loaded file σ)) as [[[]]].
Qed.

Lemma script_handlers process_argv name m :
  handlers (script process_argv) !! name = Some m ->
  (name = commandName getPaymentManager /\ m = commandBuilder getPaymentManager)
  \/ (name = commandName updatePaymentManager /\ m = commandBuilder updatePaymentManager)
  \/ (name = commandName createPaymentManager /\ m = commandBuilder createPaymentManager).
Proof.
  cbn. intros Hm.
  apply lookup_insert_Some in Hm as [[<- <-]|[_ Hm]]; [by left|].
  apply lookup_insert_Some in Hm as [[<- <-]|[_ Hm]]; [by right; left|].
  apply lookup_insert_Some in Hm as [[<- <-]|[_ Hm]]; [by right; right|].
  by rewrite lookup_empty in Hm.
Qed.






(** A command that runs is one of the three, built by [commandBuilder]. *)
Lemma judge_execute process_argv p m :
  judge (script process_argv) p = Execute m ->
  m = commandBuilder getPaymentManager
  \/ m = commandBuilder updatePaymentManager
  \/ m = commandBuilder createPaymentManager.
Proof.
  unfold judge. intros Hj.
  destruct (given _ p "help"); [done|]. destruct (given _ p "version"); [done|].
  destruct (positionals p) as [|name rest]; [by case_decide|].
  destruct (handlers _ !! name) as [m'|] eqn:Hm;
    [|by destruct (strictMode _)].
  assert (m' = m) as ->.
  { destruct (unknown_keys _ p ++ rest)%list; [congruence|].
    destruct (strictMode _); congruence. }
  apply script_handlers in Hm as [[_ ->]|[[_ ->]|[_ ->]]]; auto.
Qed.

Lemma argv_script process_argv σ :
  argv (script process_argv) σ =
    match judge (script process_argv) (yargs_parser (hideBin process_argv)) with
    | Serve e => emit e σ
    | Refuse err => throw err σ
    | Execute m =>
        run m (providerParams
                 (with_defaults (script process_argv)
                    (yargs_parser (hideBin process_argv)))) σ
    | Idle => ret tt σ
    end.
Proof.
  unfold argv. cbn [processArgs cli alias demandCommand strict add_command positional yargs].
  by destruct (judge _ _).
Qed.

(** When yargs runs a command, the script is the run of that command's
    handler, on the arguments with their defaults and in the environment
    [dotenv.config()] left: nothing stands between the two. *)
Lemma main_executes file process_argv σ m :
  judge (script process_argv) (yargs_parser (hideBin process_argv)) = Execute m ->
  main' file process_argv σ =
    run m (providerParams
             (with_defaults (script process_argv)
                (yargs_parser (hideBin process_argv))))
      (loaded file σ).
Proof. intros Hj. by rewrite main_unfold, argv_script, Hj. Qed.


(** The first call of a command that runs, and the second when the
    connection is obtained. *)
Lemma main_first_calls file process_argv σ m :
  judge (script process_argv) (yargs_parser (hideBin process_argv)) = Execute m ->
  let params :=
    providerParams (with_defaults (script process_argv)
                      (yargs_parser (hideBin process_argv))) in
  let t := events_of (main' file process_argv σ) in
  t !! 0 = Some (CallConnectionFor (js_or ((env σ ∪ file) !! "CLUSTER") (cluster params)))
  /\ ((exists s c, t !! 0 = Some (CallConnectionFor s)
                   /\ connectionFor (env σ ∪ file) s = Returns c) ->
      t !! 1 = Some (CallKeypairFrom (js_or ((env σ ∪ file) !! "WALLET") (wallet params))
                       "wallet")).
Proof.
  intros Hj. cbn zeta.
  assert (exists cmd, m = commandBuilder cmd) as [cmd ->]
    by (apply judge_execute in Hj as [->|[->| ->]]; eauto).
  rewrite (main_executes _ _ _ _ Hj). split; [by rewrite first_call|].
  intros (s & c & Hs & Hc). rewrite first_call in Hs. injection Hs as <-.
  rewrite run_unfold. cbn [env loaded]. rewrite Hc.
  destruct (keypairFrom _ "wallet"); [|done].
  destruct (getArgs _ _ _); [|done]. destruct (JSON_stringify _); [|done].
  by destruct (stdin _).
Qed.


End ScriptFacts.

(** * The operations *)

Section Operations.
Import PaymentManager.
Implicit Types (chain : gmap string Account) (id : string) (who auth : Pubkey)
  (params : FeeParameters) (acct : Account).

Lemma Create_fresh who id params auth chain :
  chain !! id = None ->
  Create who id params auth chain
  = (Confirmed, <[id := {| authority := auth; feeParameters := params |}]> chain).
Proof. intros Hfree. unfold Create, submit. cbn. by rewrite Hfree. Qed.

Lemma Create_confirmed who id params auth chain chain' :
  Create who id params auth chain = (Confirmed, chain') ->
  chain !! id = None
  /\ chain' = <[id := {| authority := auth; feeParameters := params |}]> chain.
Proof.
  unfold Create, submit. cbn. destruct (chain !! id); [done|].
  intros [= <-]. done.
Qed.

Lemma Update_confirmed who id newParams newAuth chain chain' :
  Update who id newParams newAuth chain = (Confirmed, chain') ->
  exists acct,
    chain !! id = Some acct /\ who = authority acct /\
    chain' = <[id := {| authority := default (authority acct) newAuth;
                        feeParameters := default (feeParameters acct) newParams |}]>
               chain.
Proof.
  unfold Update, submit. cbn. destruct (chain !! id) as [acct|]; [|done].
  case_decide; [|done]. intros [= <-]. by exists acct.
Qed.

Lemma Get_lookup id chain acct :
  chain !! id = Some acct -> Get id chain = (Decoded acct, chain).
Proof. intros Hacct. unfold Get. by rewrite Hacct. Qed.

(** C1: on an existing account an Update succeeds only when the signer
    is the recorded authority; signed by anyone else it fails with the
    invalid-authority error, and the account reads the same before and
    after. *)
Theorem update_only_by_authority who id newParams newAuth chain acct :
  chain !! id = Some acct ->
  (forall chain', Update who id newParams newAuth chain = (Confirmed, chain') ->
     who = authority acct) /\
  (who <> authority acct ->
     exists chain',
       Update who id newParams newAuth chain = (Failed InvalidAuthority, chain') /\
       Get id chain' = Get id chain /\
       chain' = chain).
Proof.
  intros Hacct. split.
  - intros chain' Hup. apply Update_confirmed in Hup as (acct' & Hacct' & -> & _).
    congruence.
  - intros Hother. exists chain. unfold Update, submit. cbn. rewrite Hacct.
    by rewrite decide_False.
Qed.

(** C5: where no account exists under the identifier, Create is
    confirmed, and the Get that follows decodes an account whose authority
    and fee parameters are those given to Create; and whenever a Create is
    confirmed, the Get that follows returns its inputs. *)
Theorem create_then_get who id params auth chain :
  (chain !! id = None ->
     exists chain',
       Create who id params auth chain = (Confirmed, chain') /\
       Get id chain'
       = (Decoded {| authority := auth; feeParameters := params |}, chain')) /\
  (forall chain',
     Create who id params auth chain = (Confirmed, chain') ->
     Get id chain'
     = (Decoded {| authority := auth; feeParameters := params |}, chain')).
Proof.
  split.
  - intros Hfree. eexists. split; [by apply Create_fresh|].
    apply Get_lookup, lookup_insert_eq.
  - intros chain' Hc. apply Create_confirmed in Hc as [_ ->].
    apply Get_lookup, lookup_insert_eq.
Qed.

(** C6: an Update of an existing account signed by its authority is
    confirmed; the Get that follows decodes an account in which the fee
    parameters are the new ones when the update carries some and the old
    ones otherwise, and likewise the authority; every other account of the
    chain is as before. *)
Theorem update_changes_what_it_targets id newParams newAuth chain acct :
  chain !! id = Some acct ->
  exists chain' acct',
    Update (authority acct) id newParams newAuth chain = (Confirmed, chain') /\
    Get id chain' = (Decoded acct', chain') /\
    authority acct' = default (authority acct) newAuth /\
    feeParameters acct' = default (feeParameters acct) newParams /\
    (forall id', id' <> id -> chain' !! id' = chain !! id').
Proof.
  intros Hacct. eexists _, _. split; [|split; [|split; [|split]]].
  - unfold Update, submit. cbn. rewrite Hacct. by rewrite decide_True.
  - apply Get_lookup, lookup_insert_eq.
  - done.
  - done.
  - intros id' Hne. by rewrite lookup_insert_ne.
Qed.

(** C7: where no account exists under the identifier, Get yields "not
    found", never a decoded account, and hands the chain back as it was. *)
Theorem get_of_missing_account id chain :
  chain !! id = None ->
  Get id chain = (NotFound, chain) /\
  forall acct, (Get id chain).1 <> Decoded acct.
Proof.
  intros Hfree. unfold Get. rewrite Hfree. split; [done|]. by intros acct.
Qed.

(** The scenario of the specification: create "payments-1" at 250 basis
    points under authority A; A raises the fee to 500; B, who is not the
    authority, tries 999 and fails; the account still reads 500. *)
Example scenario :
  let p bps := {| fee := BasisPoints bps; feeRecipients := [] |} in
  let account bps := {| authority := "A"; feeParameters := p bps |} in
  let '(r1, c1) := Create "A" "payments-1" (p 250%N) "A" ∅ in
  let '(r2, c2) := Update "A" "payments-1" (Some (p 500%N)) None c1 in
  let '(r3, c3) := Update "B" "payments-1" (Some (p 999%N)) None c2 in
  r1 = Confirmed /\ (Get "payments-1" c1).1 = Decoded (account 250%N) /\
  r2 = Confirmed /\ (Get "payments-1" c2).1 = Decoded (account 500%N) /\
  r3 = Failed InvalidAuthority /\ (Get "payments-1" c3).1 = Decoded (account 500%N).
Proof. vm_compute. repeat split. Qed.

End Operations.

(** * Further properties of [commandBuilder] and [question] *)

Section CommandBuilderMore.
Context `{H : Host}.
Implicit Types (cmd : Command) (params : ProviderParams) (σ : world).

(** X1: the line typed at the prompt is not looked at: when the
    connection, the wallet, the arguments and their JSON text are obtained,
    whatever answers the question (an empty line, "n", anything), the run
    is the same one, and it calls the operation handler, once, right after
    the prompt. *)
Theorem answer_is_ignored cmd params σ c k a json ans ans' rest :
  connectionFor (env σ) (js_or (env σ !! "CLUSTER") (cluster params)) = Returns c ->
  keypairFrom (js_or (env σ !! "WALLET") (wallet params)) "wallet" = Returns k ->
  getArgs cmd c (newWallet k) = Returns a ->
  JSON_stringify a = Returns json ->
  stdin σ = ans :: rest ->
  run (commandBuilder cmd) params
    {| env := env σ; stdin := ans' :: rest; ext := ext σ |}
  = run (commandBuilder cmd) params σ
  /\ events_of (run (commandBuilder cmd) params σ) !! 8
     = Some (CallHandler c (newWallet k) a)
  /\ count is_handler (events_of (run (commandBuilder cmd) params σ)) = 1.
Proof.
  intros Hc Hk Ha Hj Hin.
  rewrite (run_ready cmd params σ c k a json Hc Hk Ha Hj), Hin.
  rewrite (run_ready cmd params
             {| env := env σ; stdin := ans' :: rest; ext := ext σ |}
             c k a json Hc Hk Ha Hj).
  split; [done|]. split; [done|].
  unfold events_of, shown. cbn. by rewrite count_logs.
Qed.

(** X2: when the connection, the wallet, the arguments and their JSON
    text are obtained and standard input has no line to give, the run stays
    pending at the prompt: [getArgs] has been called and the arguments
    printed (eight events, the prompt last), the operation handler is not
    called, and the state is left as it was. *)
Theorem no_answer_no_execution cmd params σ c k a json :
  connectionFor (env σ) (js_or (env σ !! "CLUSTER") (cluster params)) = Returns c ->
  keypairFrom (js_or (env σ !! "WALLET") (wallet params)) "wallet" = Returns k ->
  getArgs cmd c (newWallet k) = Returns a ->
  JSON_stringify a = Returns json ->
  stdin σ = [] ->
  let r := run (commandBuilder cmd) params σ in
  outcome_of r = Pending /\
  world_of r = σ /\
  count is_handler (events_of r) = 0 /\
  count is_getArgs (events_of r) = 1 /\
  length (events_of r) = 8 /\
  events_of r !! 6 = Some (ConsoleLog json) /\
  events_of r !! 7 = Some (Prompt (nl +:+ "Execute... [enter]")).
Proof.
  intros Hc Hk Ha Hj Hin. cbn zeta.
  by rewrite (run_ready cmd params σ c k a json Hc Hk Ha Hj), Hin.
Qed.

(** X3: what a run writes on the terminal when the connection, the
    wallet, the arguments and their JSON text are obtained, in order: the
    description, the cluster and wallet line, the hint naming the file of
    the command, the JSON text of the arguments and the query
    "Execute... [enter]"; then, if a line answered, what the operation
    handler printed, and nothing else. *)
Theorem terminal_transcript cmd params σ c k a json :
  connectionFor (env σ) (js_or (env σ !! "CLUSTER") (cluster params)) = Returns c ->
  keypairFrom (js_or (env σ !! "WALLET") (wallet params)) "wallet" = Returns k ->
  getArgs cmd c (newWallet k) = Returns a ->
  JSON_stringify a = Returns json ->
  stdout_of (events_of (run (commandBuilder cmd) params σ)) =
    ([ description cmd;
       "[cluster=" +:+ js_or (env σ !! "CLUSTER") (cluster params) +:+ "] [wallet="
         +:+ publicKey_toString (newWallet k) +:+ "]";
       nl +:+ "(modify args in " +:+ commandName cmd +:+ ".ts)";
       json;
       nl +:+ "Execute... [enter]" ]
     ++ match stdin σ with
        | [] => []
        | _ :: _ => printed (handler cmd c (newWallet k) a (ext σ))
        end)%list.
Proof.
  intros Hc Hk Ha Hj.
  rewrite (run_ready cmd params σ c k a json Hc Hk Ha Hj).
  destruct (stdin σ); [done|].
  unfold events_of, shown, stdout_of. cbn. do 5 f_equal. apply stdout_of_logs.
Qed.

(** X4: when the connection, the wallet and the arguments are obtained,
    the line "[cluster=...] [wallet=...]" shows what the run uses: the
    cluster name in it is the one the connection helper was called with,
    and the key in it is the public key of the wallet that [getArgs] and
    the operation handler receive, with the connection obtained. *)
Theorem banner_shows_what_is_used cmd params σ c k a :
  connectionFor (env σ) (js_or (env σ !! "CLUSTER") (cluster params)) = Returns c ->
  keypairFrom (js_or (env σ !! "WALLET") (wallet params)) "wallet" = Returns k ->
  getArgs cmd c (newWallet k) = Returns a ->
  let t := events_of (run (commandBuilder cmd) params σ) in
  exists s,
    t !! 0 = Some (CallConnectionFor s) /\
    t !! 4 = Some (ConsoleLog ("[cluster=" +:+ s +:+ "] [wallet="
                               +:+ publicKey_toString (newWallet k) +:+ "]")) /\
    forall i c' w' a',
      t !! i = Some (CallGetArgs c' w') \/ t !! i = Some (CallHandler c' w' a') ->
      c' = c /\ w' = newWallet k.
Proof.
  intros Hc Hk Ha. cbn zeta. exists (clusterString_of params σ).
  split; [apply first_call|]. split.
  - rewrite run_unfold. unfold clusterString_of, walletString_of. rewrite Hc, Hk, Ha.
    destruct (JSON_stringify a); [|done]. by destruct (stdin σ).
  - assert (forall c' k', connectionFor (env σ) (clusterString_of params σ) = Returns c' ->
              keypairFrom (walletString_of params σ) "wallet" = Returns k' ->
              c' = c /\ newWallet k' = newWallet k) as Hsame.
    { intros c' k' Hc' Hk'. unfold clusterString_of in Hc'. unfold walletString_of in Hk'.
      split; congruence. }
    intros i c' w' a' [Hi|Hi].
    + apply getArgs_called in Hi as (_ & Hc' & k' & Hk' & ->). by apply Hsame.
    + apply handler_called in Hi as (_ & Hc' & k' & ? & ? & ? & Hk' & -> & _).
      by apply Hsame.
Qed.

(** X5: the connection helper is never asked for an empty cluster name,
    and the key pair never read from an empty string, unless the
    corresponding argument itself is empty: an environment variable cannot
    make them empty. *)
Theorem override_never_empties cmd params σ :
  let t := events_of (run (commandBuilder cmd) params σ) in
  (cluster params <> "" -> forall i s, t !! i = Some (CallConnectionFor s) -> s <> "") /\
  (wallet params <> "" -> forall i s n, t !! i = Some (CallKeypairFrom s n) -> s <> "").
Proof.
  cbn zeta. split; intros Hne i s.
  - intros Hi ->. apply connection_called in Hi as (_ & Hs).
    symmetry in Hs. by apply js_or_fallback in Hs.
  - intros n Hi ->. apply keypair_called in Hi as (_ & Hs & _).
    symmetry in Hs. by apply js_or_fallback in Hs.
Qed.

(** X12: when the connection helper, the key pair reader or [getArgs]
    throws, the promise of the command rejects with the value thrown:
    nothing has been printed, no prompt shown, no line read, the operation
    handler is not called, and the state is left as it was.  The calls stop
    at the one that threw. *)
Theorem early_failure_rejects cmd params σ e :
  let r := run (commandBuilder cmd) params σ in
  let cs := js_or (env σ !! "CLUSTER") (cluster params) in
  let ws := js_or (env σ !! "WALLET") (wallet params) in
  (connectionFor (env σ) cs = Throws e ->
     r = (Rejected e, [CallConnectionFor cs], σ)) /\
  (forall c, connectionFor (env σ) cs = Returns c ->
     keypairFrom ws "wallet" = Throws e ->
     r = (Rejected e, [CallConnectionFor cs; CallKeypairFrom ws "wallet"], σ)) /\
  (forall c k, connectionFor (env σ) cs = Returns c ->
     keypairFrom ws "wallet" = Returns k ->
     getArgs cmd c (newWallet k) = Throws e ->
     r = (Rejected e,
          [CallConnectionFor cs; CallKeypairFrom ws "wallet";
           CallGetArgs c (newWallet k)], σ)) /\
  (connectionFor (env σ) cs = Throws e
   \/ (exists c, connectionFor (env σ) cs = Returns c /\
         (keypairFrom ws "wallet" = Throws e
          \/ exists k, keypairFrom ws "wallet" = Returns k
                       /\ getArgs cmd c (newWallet k) = Throws e)) ->
   outcome_of r = Rejected e /\ stdout_of (events_of r) = [] /\
   count is_handler (events_of r) = 0 /\ world_of r = σ).
Proof.
  cbn zeta. rewrite run_unfold. unfold clusterString_of, walletString_of.
  split; [by intros ->|]. split; [by intros c -> ->|].
  split; [by intros c k -> -> ->|].
  intros [-> |(c & -> & [-> |(k & -> & ->)])]; done.
Qed.

End CommandBuilderMore.

(** * Further properties of the script *)

Section ScriptMore.
Context `{H : Host}.
Variables createPaymentManager updatePaymentManager getPaymentManager : Command.
Implicit Types (σ : world) (file : gmap string string) (p : ParsedArgs).

Local Abbreviation script :=
  (cli createPaymentManager updatePaymentManager getPaymentManager).
Local Abbreviation main' :=
  (main createPaymentManager updatePaymentManager getPaymentManager).
Local Abbreviation parsed process_argv := (yargs_parser (hideBin process_argv)).
Local Abbreviation arguments process_argv :=
  (providerParams (with_defaults (script process_argv) (parsed process_argv))).

Lemma script_flag process_argv key v :
  options (parsed process_argv) !! key = Some v ->
  with_defaults (script process_argv) (parsed process_argv) !!! key = v.
Proof.
  intros Hopt. unfold with_defaults.
  by rewrite lookup_total_alt, (lookup_union_Some_l _ _ _ _ Hopt).
Qed.


(** X6: when a command runs, a [CLUSTER] variable of the process
    environment set to a non-empty string wins over the [.env] file and the
    command line; one the process environment does not have and the [.env]
    file sets to a non-empty string wins over the command line; and one the
    process environment sets to the empty string hides the [.env] file: the
    argument of the command line (or its default) is used.  The same holds
    of [WALLET] and the string the key pair is read from, as soon as the
    connection is obtained. *)
Theorem environment_precedence file process_argv σ m :
  judge (script process_argv) (parsed process_argv) = Execute m ->
  let t := events_of (main' file process_argv σ) in
  let connected :=
    exists s c, t !! 0 = Some (CallConnectionFor s)
                /\ connectionFor (env σ ∪ file) s = Returns c in
  (forall v, env σ !! "CLUSTER" = Some v -> v <> "" ->
     t !! 0 = Some (CallConnectionFor v)) /\
  (forall v, env σ !! "CLUSTER" = None -> file !! "CLUSTER" = Some v -> v <> "" ->
     t !! 0 = Some (CallConnectionFor v)) /\
  (env σ !! "CLUSTER" = Some "" ->
     t !! 0 = Some (CallConnectionFor (cluster (arguments process_argv)))) /\
  (forall v, env σ !! "WALLET" = Some v -> v <> "" -> connected ->
     t !! 1 = Some (CallKeypairFrom v "wallet")) /\
  (forall v, env σ !! "WALLET" = None -> file !! "WALLET" = Some v -> v <> "" ->
     connected ->
     t !! 1 = Some (CallKeypairFrom v "wallet")) /\
  (env σ !! "WALLET" = Some "" -> connected ->
     t !! 1 = Some (CallKeypairFrom (wallet (arguments process_argv)) "wallet")).
Proof.
  intros Hj. cbn zeta.
  destruct (main_first_calls _ _ _ file process_argv σ m Hj) as [Hfirst Hsecond].
  split; [|split; [|split; [|split; [|split]]]].
  - intros v Hv Hne. rewrite Hfirst.
    by rewrite (lookup_union_Some_l _ _ _ _ Hv), js_or_truthy.
  - intros v Hv Hf Hne. rewrite Hfirst. by rewrite lookup_union_r, Hf, js_or_truthy.
  - intros Hv. rewrite Hfirst. by rewrite (lookup_union_Some_l _ _ _ _ Hv).
  - intros v Hv Hne Hc. rewrite (Hsecond Hc).
    by rewrite (lookup_union_Some_l _ _ _ _ Hv), js_or_truthy.
  - intros v Hv Hf Hne Hc. rewrite (Hsecond Hc).
    by rewrite lookup_union_r, Hf, js_or_truthy.
  - intros Hv Hc. rewrite (Hsecond Hc). by rewrite (lookup_union_Some_l _ _ _ _ Hv).
Qed.

(** X7: a [--cluster] (resp. [--wallet]) option of the command line is
    the argument the command receives, in place of the default, and it is
    what the connection is asked for (resp. the key pair read from, as soon
    as the connection is obtained) when neither the process environment
    nor the [.env] file sets the variable. *)
Theorem flag_replaces_default file process_argv σ m :
  judge (script process_argv) (parsed process_argv) = Execute m ->
  let t := events_of (main' file process_argv σ) in
  (forall v, options (parsed process_argv) !! "cluster" = Some v ->
     cluster (arguments process_argv) = v /\
     (env σ !! "CLUSTER" = None -> file !! "CLUSTER" = None ->
      t !! 0 = Some (CallConnectionFor v))) /\
  (forall v, options (parsed process_argv) !! "wallet" = Some v ->
     wallet (arguments process_argv) = v /\
     (env σ !! "WALLET" = None -> file !! "WALLET" = None ->
      (exists s c, t !! 0 = Some (CallConnectionFor s)
                   /\ connectionFor (env σ ∪ file) s = Returns c) ->
      t !! 1 = Some (CallKeypairFrom v "wallet"))).
Proof.
  intros Hj. cbn zeta.
  destruct (main_first_calls _ _ _ file process_argv σ m Hj) as [Hfirst Hsecond].
  split; intros v Hv.
  - assert (cluster (arguments process_argv) = v) as Hc by by apply script_flag.
    split; [done|]. intros He Hf. rewrite Hfirst.
    by rewrite (proj2 (lookup_union_None _ _ _) (conj He Hf)), js_or_undefined, Hc.
  - assert (wallet (arguments process_argv) = v) as Hw by by apply script_flag.
    split; [done|]. intros He Hf Hc. rewrite (Hsecond Hc).
    by rewrite (proj2 (lookup_union_None _ _ _) (conj He Hf)), js_or_undefined, Hw.
Qed.

(** X8: when the three modules have different command names, a command
    line made of one of these names alone, with no option that yargs does
    not know and no request for help or the version, is the run of the
    handler built for the module of that name, after [dotenv.config()]. *)
Theorem command_word_selects file process_argv σ name :
  commandName createPaymentManager <> commandName updatePaymentManager ->
  commandName createPaymentManager <> commandName getPaymentManager ->
  commandName updatePaymentManager <> commandName getPaymentManager ->
  given (script process_argv) (parsed process_argv) "help" = false ->
  given (script process_argv) (parsed process_argv) "version" = false ->
  positionals (parsed process_argv) = [name] ->
  unknown_keys (script process_argv) (parsed process_argv) = [] ->
  forall cmd,
    cmd = createPaymentManager \/ cmd = updatePaymentManager
    \/ cmd = getPaymentManager ->
    name = commandName cmd ->
    main' file process_argv σ
    = run (commandBuilder cmd) (arguments process_argv) (loaded file σ).
Proof.
  intros Hcu Hcg Hug Hhelp Hversion Hpos Hkeys cmd Hcmd ->.
  apply main_executes. unfold judge. rewrite Hhelp, Hversion, Hpos.
  assert (handlers (script process_argv) !! commandName cmd
          = Some (commandBuilder cmd)) as ->.
  { cbn. destruct Hcmd as [->|[->| ->]].
    - rewrite !lookup_insert_ne by done. apply lookup_insert_eq.
    - rewrite lookup_insert_ne by done. apply lookup_insert_eq.
    - apply lookup_insert_eq. }
  by rewrite Hkeys.
Qed.



(** X11: whatever the command line, one run of the script calls
    [getArgs] at most once and an operation handler at most once, and
    never a handler without having called [getArgs]. *)
Theorem script_runs_at_most_one_handler file process_argv σ :
  let t := events_of (main' file process_argv σ) in
  count is_getArgs t <= 1 /\
  count is_handler t <= 1 /\
  count is_handler t <= count is_getArgs t.
Proof.
  cbn zeta. rewrite main_unfold, argv_script.
  destruct (judge _ _) as [e|err|m|] eqn:Hj.
  - unfold judge in Hj.
    destruct (given _ _ "help"); [injection Hj as <-; cbn; lia|].
    destruct (given _ _ "version"); [injection Hj as <-; cbn; lia|].
    destruct (positionals _); [by case_decide|].
    destruct (handlers _ !! _); [|by destruct (strictMode _)].
    destruct (_ ++ _)%list; [done|]. by destruct (strictMode _).
  - cbn. lia.
  - assert (exists cmd, m = commandBuilder cmd) as [cmd ->]
      by (apply judge_execute in Hj as [->|[->| ->]]; eauto).
    pose proof (count_getArgs_le cmd (arguments process_argv) (loaded file σ)).
    pose proof (count_handler_le cmd (arguments process_argv) (loaded file σ)).
    lia.
  - cbn. lia.
Qed.

End ScriptMore.

(** * The statements on the concrete host *)

Section OnTheDemoHost.
Import PaymentManager.

(** C2, as stated, fails: with the create command on a fresh terminal the
    arguments are printed at index 6 and the prompt at index 7. *)
Lemma prompt_precedes_arguments_counterexample :
  ~ prompt_precedes_arguments
      (events_of (run (commandBuilder Demo.create) Demo.params Demo.fresh))
      "{ create: payments-1 }".
Proof.
  intros Hclaim.
  specialize (Hclaim 7 6 (nl +:+ "Execute... [enter]") eq_refl eq_refl). lia.
Qed.

(** C3, as stated, fails: with [CLUSTER] set to the empty string the
    connection is asked for the [--cluster] argument, not for the value of
    the variable. *)
Lemma env_overrides_counterexample :
  ~ env_overrides Demo.create Demo.params
      (Demo.with_env {[ "CLUSTER" := "" ]} Demo.fresh).
Proof.
  intros [Hcluster _]. specialize (Hcluster "" eq_refl). discriminate Hcluster.
Qed.

(** C9, as stated, fails: when the connection helper throws, here on a
    cluster name it does not know, the run ends before [getArgs] is
    called. *)
Lemma getArgs_called_once_counterexample :
  ~ getArgs_called_once Demo.create
      {| cluster := "bogus"; wallet := "~/.config/solana/id.json" |} Demo.fresh.
Proof. unfold getArgs_called_once. vm_compute. discriminate. Qed.


Lemma arguments_then_prompt_then_handler_witness :
  let a := Demo.ForCreate "payments-1" Demo.params250 "~/.config/solana/id.json" in
  let r := run (commandBuilder Demo.create) Demo.params Demo.fresh in
  @connectionFor Demo.host (env Demo.fresh) "devnet" = Returns "devnet" /\
  @keypairFrom Demo.host "~/.config/solana/id.json" "wallet"
  = Returns "~/.config/solana/id.json" /\
  events_of r =
    [ CallConnectionFor "devnet";
      CallKeypairFrom "~/.config/solana/id.json" "wallet";
      @CallGetArgs Demo.host "devnet" "~/.config/solana/id.json";
      ConsoleLog "Create a payment manager";
      ConsoleLog "[cluster=devnet] [wallet=~/.config/solana/id.json]";
      ConsoleLog (nl +:+ "(modify args in createPaymentManager.ts)");
      ConsoleLog "{ create: payments-1 }";
      Prompt (nl +:+ "Execute... [enter]");
      @CallHandler Demo.host "devnet" "~/.config/solana/id.json" a;
      ConsoleLog "Created payments-1" ] /\
  outcome_of r = Resolved tt.
Proof.
  cbn zeta. split; [reflexivity|]. split; [reflexivity|].
  exact (arguments_then_prompt_then_handler Demo.create Demo.params Demo.fresh
           "devnet" "~/.config/solana/id.json"
           (Demo.ForCreate "payments-1" Demo.params250 "~/.config/solana/id.json")
           "{ create: payments-1 }" eq_refl eq_refl eq_refl eq_refl).
Defined.

Lemma env_overrides_when_not_empty_witness :
  let σ := Demo.with_env {[ "CLUSTER" := "mainnet-beta"; "WALLET" := "key.json" ]}
             Demo.fresh in
  let t := events_of (run (commandBuilder Demo.create) Demo.params σ) in
  (env σ !! "CLUSTER" = Some "mainnet-beta" /\ "mainnet-beta" <> "" /\
   t !! 0 = Some (CallConnectionFor "mainnet-beta")) /\
  (env σ !! "WALLET" = Some "key.json" /\ "key.json" <> "" /\
   @connectionFor Demo.host (env σ) "mainnet-beta" = Returns "mainnet-beta" /\
   t !! 1 = Some (CallKeypairFrom "key.json" "wallet")).
Proof.
  cbn zeta.
  destruct (env_overrides_when_not_empty Demo.create Demo.params
              (Demo.with_env {[ "CLUSTER" := "mainnet-beta"; "WALLET" := "key.json" ]}
                 Demo.fresh)) as [Hc Hw].
  split.
  - split; [reflexivity|]. split; [discriminate|].
    apply (Hc "mainnet-beta"); [reflexivity|discriminate].
  - split; [reflexivity|]. split; [discriminate|]. split; [reflexivity|].
    destruct (Hw "key.json" eq_refl ltac:(discriminate)) as (_ & Hsecond & _).
    apply Hsecond. exists "mainnet-beta", "mainnet-beta". split; reflexivity.
Defined.

Lemma empty_env_value_is_unset_witness :
  let σ := Demo.with_env {[ "CLUSTER" := ""; "WALLET" := "" ]} Demo.fresh in
  let t := events_of (run (commandBuilder Demo.create) Demo.params σ) in
  (env σ !! "CLUSTER" = Some "" /\ t !! 0 = Some (CallConnectionFor "devnet")) /\
  (env σ !! "WALLET" = Some "" /\
   @connectionFor Demo.host (env σ) "devnet" = Returns "devnet" /\
   t !! 1 = Some (CallKeypairFrom "~/.config/solana/id.json" "wallet")).
Proof.
  cbn zeta.
  destruct (empty_env_value_is_unset Demo.create Demo.params
              (Demo.with_env {[ "CLUSTER" := ""; "WALLET" := "" ]} Demo.fresh))
    as [Hc Hw].
  split.
  - split; [reflexivity|]. apply Hc. left. reflexivity.
  - split; [reflexivity|]. split; [reflexivity|].
    destruct (Hw (or_introl eq_refl)) as (_ & Hsecond & _).
    apply Hsecond. exists "devnet", "devnet". split; reflexivity.
Defined.

Lemma getArgs_once_shown_is_executed_witness :
  let a := Demo.ForGet "payments-1" in
  let t := events_of (run (commandBuilder Demo.get) Demo.params Demo.fresh) in
  @connectionFor Demo.host (env Demo.fresh) "devnet" = Returns "devnet" /\
  @keypairFrom Demo.host "~/.config/solana/id.json" "wallet"
  = Returns "~/.config/solana/id.json" /\
  count is_getArgs t = 1 /\
  t !! 2 = Some (@CallGetArgs Demo.host "devnet" "~/.config/solana/id.json") /\
  t !! 6 = Some (ConsoleLog "{ get: payments-1 }") /\
  stdin Demo.fresh <> [] /\
  t !! 8 = Some (@CallHandler Demo.host "devnet" "~/.config/solana/id.json" a).
Proof.
  cbn zeta. split; [reflexivity|]. split; [reflexivity|].
  destruct (getArgs_once_shown_is_executed Demo.get Demo.params Demo.fresh)
    as [_ Hready].
  destruct (Hready "devnet" "~/.config/solana/id.json" eq_refl eq_refl)
    as (Hcount & Hthird & Hargs).
  destruct (Hargs (Demo.ForGet "payments-1") "{ get: payments-1 }" eq_refl eq_refl)
    as (Hjson & Hcall & _).
  split; [exact Hcount|]. split; [exact Hthird|]. split; [exact Hjson|].
  split; [discriminate|]. apply Hcall. discriminate.
Defined.

Lemma handler_failure_propagates_witness :
  let σ := Demo.with_chain Demo.taken Demo.fresh in
  let r := run (commandBuilder Demo.create) Demo.params σ in
  let a := Demo.ForCreate "payments-1" Demo.params250 "~/.config/solana/id.json" in
  events_of r !! 8 = Some (@CallHandler Demo.host "devnet" "~/.config/solana/id.json" a) /\
  settled (handler Demo.create "devnet" "~/.config/solana/id.json" a (ext σ))
    = Rejected (Demo.TransactionFailed AccountAlreadyExists) /\
  outcome_of r = Rejected (Demo.TransactionFailed AccountAlreadyExists) /\
  count is_handler (events_of r) = 1 /\
  ext (world_of r) = Demo.taken.
Proof.
  cbn zeta. split; [reflexivity|]. split; [reflexivity|].
  destruct (handler_failure_propagates Demo.create Demo.params
              (Demo.with_chain Demo.taken Demo.fresh) 8
              "devnet" "~/.config/solana/id.json"
              (Demo.ForCreate "payments-1" Demo.params250 "~/.config/solana/id.json")
              (Demo.TransactionFailed AccountAlreadyExists) eq_refl eq_refl)
    as (Hout & Hcount & _ & Hext).
  split; [exact Hout|]. split; [exact Hcount|]. exact Hext.
Defined.


Lemma update_only_by_authority_witness :
  Demo.taken !! "payments-1" = Some {| authority := "A"; feeParameters := Demo.params250 |} /\
  "B" <> "A" /\
  exists chain',
    Update "B" "payments-1" (Some Demo.params500) None Demo.taken
    = (Failed InvalidAuthority, chain') /\
    Get "payments-1" chain' = Get "payments-1" Demo.taken /\
    chain' = Demo.taken.
Proof.
  split; [reflexivity|]. split; [discriminate|].
  apply (update_only_by_authority "B" "payments-1" (Some Demo.params500) None
           Demo.taken {| authority := "A"; feeParameters := Demo.params250 |});
    [reflexivity|discriminate].
Defined.

Lemma create_then_get_witness :
  (∅ : gmap string Account) !! "payments-1" = None /\
  exists chain',
    Create "payer" "payments-1" Demo.params250 "A" ∅ = (Confirmed, chain') /\
    Get "payments-1" chain'
    = (Decoded {| authority := "A"; feeParameters := Demo.params250 |}, chain').
Proof.
  split; [reflexivity|].
  apply (create_then_get "payer" "payments-1" Demo.params250 "A" ∅). reflexivity.
Defined.

Lemma update_changes_what_it_targets_witness :
  Demo.taken !! "payments-1" = Some {| authority := "A"; feeParameters := Demo.params250 |} /\
  exists chain' acct',
    Update "A" "payments-1" (Some Demo.params500) None Demo.taken = (Confirmed, chain') /\
    Get "payments-1" chain' = (Decoded acct', chain') /\
    authority acct' = "A" /\
    feeParameters acct' = Demo.params500 /\
    (forall id', id' <> "payments-1" -> chain' !! id' = Demo.taken !! id').
Proof.
  split; [reflexivity|].
  apply (update_changes_what_it_targets "payments-1" (Some Demo.params500) None
           Demo.taken {| authority := "A"; feeParameters := Demo.params250 |}).
  reflexivity.
Defined.

Lemma get_of_missing_account_witness :
  Demo.taken !! "payments-2" = None /\
  Get "payments-2" Demo.taken = (NotFound, Demo.taken).
Proof.
  split; [reflexivity|].
  apply (get_of_missing_account "payments-2" Demo.taken). reflexivity.
Defined.

End OnTheDemoHost.

(** * The further statements on the concrete host *)

Section MoreOnTheDemoHost.
Import PaymentManager.

Lemma answer_is_ignored_witness :
  let a := Demo.ForCreate "payments-1" Demo.params250 "~/.config/solana/id.json" in
  @connectionFor Demo.host (env Demo.fresh) "devnet" = Returns "devnet" /\
  stdin Demo.fresh = [""] /\
  run (commandBuilder Demo.create) Demo.params
    {| env := env Demo.fresh; stdin := ["n"]; ext := ext Demo.fresh |}
  = run (commandBuilder Demo.create) Demo.params Demo.fresh /\
  events_of (run (commandBuilder Demo.create) Demo.params Demo.fresh) !! 8
  = Some (@CallHandler Demo.host "devnet" "~/.config/solana/id.json" a) /\
  count is_handler (events_of (run (commandBuilder Demo.create) Demo.params Demo.fresh)) = 1.
Proof.
  cbn zeta. split; [reflexivity|]. split; [reflexivity|].
  exact (answer_is_ignored Demo.create Demo.params Demo.fresh
           "devnet" "~/.config/solana/id.json"
           (Demo.ForCreate "payments-1" Demo.params250 "~/.config/solana/id.json")
           "{ create: payments-1 }" "" "n" []
           eq_refl eq_refl eq_refl eq_refl eq_refl).
Defined.

Lemma no_answer_no_execution_witness :
  let σ := {| env := ∅; stdin := []; ext := (∅ : @Ext Demo.host) |} in
  let r := run (commandBuilder Demo.create) Demo.params σ in
  @connectionFor Demo.host (env σ) "devnet" = Returns "devnet" /\
  stdin σ = [] /\
  outcome_of r = Pending /\
  count is_handler (events_of r) = 0 /\
  count is_getArgs (events_of r) = 1.
Proof.
  cbn zeta. split; [reflexivity|]. split; [reflexivity|].
  destruct (no_answer_no_execution Demo.create Demo.params
              {| env := ∅; stdin := []; ext := (∅ : @Ext Demo.host) |}
              "devnet" "~/.config/solana/id.json"
              (Demo.ForCreate "payments-1" Demo.params250 "~/.config/solana/id.json")
              "{ create: payments-1 }")
    as (Hout & _ & Hhandler & Hargs & _); [reflexivity..|].
  split; [exact Hout|]. split; [exact Hhandler|exact Hargs].
Defined.

Lemma terminal_transcript_witness :
  @connectionFor Demo.host (env Demo.fresh) "devnet" = Returns "devnet" /\
  stdout_of (events_of (run (commandBuilder Demo.create) Demo.params Demo.fresh)) =
    [ "Create a payment manager";
      "[cluster=devnet] [wallet=~/.config/solana/id.json]";
      nl +:+ "(modify args in createPaymentManager.ts)";
      "{ create: payments-1 }";
      nl +:+ "Execute... [enter]";
      "Created payments-1" ].
Proof.
  split; [reflexivity|].
  exact (terminal_transcript Demo.create Demo.params Demo.fresh
           "devnet" "~/.config/solana/id.json"
           (Demo.ForCreate "payments-1" Demo.params250 "~/.config/solana/id.json")
           "{ create: payments-1 }" eq_refl eq_refl eq_refl eq_refl).
Defined.

Lemma banner_shows_what_is_used_witness :
  let σ := Demo.with_env {[ "CLUSTER" := "testnet" ]} Demo.fresh in
  let t := events_of (run (commandBuilder Demo.create) Demo.params σ) in
  @connectionFor Demo.host (env σ) "testnet" = Returns "testnet" /\
  exists s,
    t !! 0 = Some (CallConnectionFor s) /\
    t !! 4 = Some (ConsoleLog ("[cluster=" +:+ s
                               +:+ "] [wallet=~/.config/solana/id.json]")).
Proof.
  cbn zeta. split; [reflexivity|].
  destruct (banner_shows_what_is_used Demo.create Demo.params
              (Demo.with_env {[ "CLUSTER" := "testnet" ]} Demo.fresh)
              "testnet" "~/.config/solana/id.json"
              (Demo.ForCreate "payments-1" Demo.params250 "~/.config/solana/id.json"))
    as (s & Hfirst & Hline & _); [reflexivity..|].
  exists s. split; [exact Hfirst|exact Hline].
Defined.

Lemma override_never_empties_witness :
  let σ := Demo.with_env {[ "CLUSTER" := ""; "WALLET" := "" ]} Demo.fresh in
  let t := events_of (run (commandBuilder Demo.create) Demo.params σ) in
  cluster Demo.params <> "" /\
  t !! 0 = Some (CallConnectionFor "devnet") /\
  "devnet" <> "" /\
  wallet Demo.params <> "" /\
  t !! 1 = Some (CallKeypairFrom "~/.config/solana/id.json" "wallet") /\
  "~/.config/solana/id.json" <> "".
Proof.
  cbn zeta.
  destruct (override_never_empties Demo.create Demo.params
              (Demo.with_env {[ "CLUSTER" := ""; "WALLET" := "" ]} Demo.fresh))
    as [Hc Hw].
  split; [discriminate|]. split; [reflexivity|].
  split; [apply (Hc ltac:(discriminate) 0 "devnet" eq_refl)|].
  split; [discriminate|]. split; [reflexivity|].
  apply (Hw ltac:(discriminate) 1 "~/.config/solana/id.json" "wallet" eq_refl).
Defined.

Lemma early_failure_rejects_witness :
  let bogus := {| cluster := "bogus"; wallet := "~/.config/solana/id.json" |} in
  let r := run (commandBuilder Demo.create) bogus Demo.fresh in
  @connectionFor Demo.host (env Demo.fresh) "bogus" = Throws (Demo.UnknownCluster "bogus") /\
  r = (Rejected (Demo.UnknownCluster "bogus"), [CallConnectionFor "bogus"], Demo.fresh) /\
  stdout_of (events_of r) = [] /\
  count is_handler (events_of r) = 0.
Proof.
  cbn zeta. split; [reflexivity|].
  destruct (early_failure_rejects Demo.create
              {| cluster := "bogus"; wallet := "~/.config/solana/id.json" |}
              Demo.fresh (Demo.UnknownCluster "bogus"))
    as (Hthrows & _ & _ & Hquiet).
  split; [exact (Hthrows eq_refl)|].
  destruct (Hquiet (or_introl eq_refl)) as (_ & Hout & Hcount & _).
  split; [exact Hout|exact Hcount].
Defined.

Lemma environment_precedence_witness :
  let words := ["node"; "cli.js"; "createPaymentManager"] in
  let file : gmap string string := {[ "CLUSTER" := "testnet"; "WALLET" := "key.json" ]} in
  let run_main σ := main Demo.create Demo.update Demo.get file words σ in
  events_of (run_main (Demo.with_env {[ "CLUSTER" := "mainnet-beta" ]} Demo.fresh)) !! 0
  = Some (CallConnectionFor "mainnet-beta") /\
  events_of (run_main Demo.fresh) !! 0 = Some (CallConnectionFor "testnet") /\
  events_of (run_main (Demo.with_env {[ "CLUSTER" := "" ]} Demo.fresh)) !! 0
  = Some (CallConnectionFor "devnet") /\
  @connectionFor Demo.host (env Demo.fresh ∪ file) "testnet" = Returns "testnet" /\
  events_of (run_main Demo.fresh) !! 1 = Some (CallKeypairFrom "key.json" "wallet").
Proof.
  cbn zeta.
  destruct (environment_precedence Demo.create Demo.update Demo.get
              {[ "CLUSTER" := "testnet"; "WALLET" := "key.json" ]}
              ["node"; "cli.js"; "createPaymentManager"]
              (Demo.with_env {[ "CLUSTER" := "mainnet-beta" ]} Demo.fresh)
              (commandBuilder Demo.create) eq_refl) as (Hset & _).
  destruct (environment_precedence Demo.create Demo.update Demo.get
              {[ "CLUSTER" := "testnet"; "WALLET" := "key.json" ]}
              ["node"; "cli.js"; "createPaymentManager"]
              Demo.fresh (commandBuilder Demo.create) eq_refl)
    as (_ & Hfile & _ & _ & Hwallet & _).
  destruct (environment_precedence Demo.create Demo.update Demo.get
              {[ "CLUSTER" := "testnet"; "WALLET" := "key.json" ]}
              ["node"; "cli.js"; "createPaymentManager"]
              (Demo.with_env {[ "CLUSTER" := "" ]} Demo.fresh)
              (commandBuilder Demo.create) eq_refl) as (_ & _ & Hempty & _).
  split; [apply (Hset "mainnet-beta"); [reflexivity|discriminate]|].
  split; [apply (Hfile "testnet"); [reflexivity|reflexivity|discriminate]|].
  split; [apply Hempty; reflexivity|]. split; [reflexivity|].
  apply (Hwallet "key.json"); [reflexivity|reflexivity|discriminate|].
  exists "testnet", "testnet". split; reflexivity.
Defined.

Lemma flag_replaces_default_witness :
  let words := ["node"; "cli.js"; "getPaymentManager"; "--cluster"; "mainnet-beta"] in
  options (@yargs_parser Demo.host (hideBin words)) !! "cluster" = Some "mainnet-beta" /\
  events_of (main Demo.create Demo.update Demo.get ∅ words Demo.fresh) !! 0
  = Some (CallConnectionFor "mainnet-beta").
Proof.
  cbn zeta. split; [reflexivity|].
  destruct (flag_replaces_default Demo.create Demo.update Demo.get ∅
              ["node"; "cli.js"; "getPaymentManager"; "--cluster"; "mainnet-beta"]
              Demo.fresh (commandBuilder Demo.get) eq_refl) as (Hcluster & _).
  destruct (Hcluster "mainnet-beta" eq_refl) as (_ & Hcall).
  apply Hcall; reflexivity.
Defined.

Lemma command_word_selects_witness :
  let words := ["node"; "cli.js"; "updatePaymentManager"] in
  positionals (@yargs_parser Demo.host (hideBin words)) = ["updatePaymentManager"] /\
  main Demo.create Demo.update Demo.get ∅ words Demo.fresh
  = run (commandBuilder Demo.update)
      (providerParams
         (with_defaults (cli Demo.create Demo.update Demo.get words)
            (@yargs_parser Demo.host (hideBin words))))
      (loaded ∅ Demo.fresh).
Proof.
  cbn zeta. split; [reflexivity|].
  apply (command_word_selects Demo.create Demo.update Demo.get ∅
           ["node"; "cli.js"; "updatePaymentManager"] Demo.fresh
           "updatePaymentManager");
    try discriminate; try reflexivity.
  right. left. reflexivity.
Defined.



End MoreOnTheDemoHost.
